(** * weather-ai: the POST /forecast service of [src/Develop/src/server.ts]

    A shallow embedding of the server script: the process start-up
    (credential check, model configuration), the prompt template and its
    f-string rendering, [promptFunc] and the [/forecast] request handler.

    The script is effectful: it writes to the console, calls the hosted
    model, and writes an HTTP response.  These effects are kept in an
    explicit world that is threaded through a small exception-and-state
    monad, so that a run of the handler yields the response that was
    written, the console lines, and the list of calls made to the model. *)

From Stdlib Require Import List Bool Arith Lia QArith.
From Stdlib Require Import Ascii String.
Import ListNotations.
Close Scope Q_scope.
Open Scope string_scope.

(* ================================================================== *)
(** * JavaScript data *)
(* ================================================================== *)

(** JSON data, as produced by [JSON.parse] and consumed by [res.json].
    Numbers are carried as rationals; their rounding to doubles plays no
    part in this program. *)
#[warnings="-register-all"]
Inductive json : Type :=
| JNull
| JBool (b : bool)
| JNum (q : Q)
| JStr (s : string)
| JArr (items : list json)
| JObj (fields : list (string * json)).

(** A value that travels through [throw]/[catch].  [JsError] stands for an
    instance of [Error] (or of a subclass, whose name it records);
    [JsNonError] for any other thrown value. *)
Inductive thrown : Type :=
| JsError (name message : string)
| JsNonError (v : json).

(** [error instanceof Error] *)
Definition instanceof_Error (e : thrown) : bool :=
  match e with
  | JsError _ _ => true
  | JsNonError _ => false
  end.

(** A string-typed binding that may hold [undefined] at run time, such as
    [req.body.location] when the body has no such field. *)
Definition js_string := option string.

(** [!!x] for such a binding: [undefined] and the empty string are falsy. *)
Definition truthy (x : js_string) : bool :=
  match x with
  | None => false
  | Some s => negb (s =? "")
  end.

(** The text JavaScript's [+] appends for such a binding. *)
Definition to_text (x : js_string) : string :=
  match x with
  | None => "undefined"
  | Some s => s
  end.

(** The double-quote character and a quoted word. *)
Definition dquote : string := String "034"%char EmptyString.
Definition quoted (s : string) : string := dquote ++ s ++ dquote.

(* ================================================================== *)
(** * Prompt templates (f-string format) *)
(* ================================================================== *)

Module FString.

(** A parsed template: literal text and named slots. *)
Inductive node : Type :=
| Literal (text : string)
| Variable_ (name : string).

Inductive scan_state : Type :=
| InLiteral (text : string)
| InVariable (name : string).

Definition flush (text : string) (rest : list node) : list node :=
  if text =? "" then rest else Literal text :: rest.

Definition snoc (s : string) (c : ascii) : string :=
  s ++ String c EmptyString.

Definition cons_node (n : node) (r : thrown + list node) : thrown + list node :=
  match r with
  | inl e => inl e
  | inr ns => inr (n :: ns)
  end.

Definition flush_to (text : string) (r : thrown + list node) : thrown + list node :=
  match r with
  | inl e => inl e
  | inr ns => inr (flush text ns)
  end.

(** [parseFString]: a doubled brace is a literal brace, [{name}] is a
    slot that runs to the next closing brace, a lone closing brace or an
    unclosed opening brace is an error. *)
Fixpoint scan (st : scan_state) (s : string) : thrown + list node :=
  match s with
  | EmptyString =>
      match st with
      | InLiteral text => inr (flush text [])
      | InVariable _ => inl (JsError "Error" "Unclosed '{' in template.")
      end
  | String c rest =>
      match st with
      | InVariable name =>
          if Ascii.eqb c "}"
          then cons_node (Variable_ name) (scan (InLiteral "") rest)
          else scan (InVariable (snoc name c)) rest
      | InLiteral text =>
          if Ascii.eqb c "{" then
            match rest with
            | String c' rest' =>
                if Ascii.eqb c' "{"
                then flush_to text (cons_node (Literal "{") (scan (InLiteral "") rest'))
                else flush_to text (scan (InVariable "") rest)
            | EmptyString => inl (JsError "Error" "Unclosed '{' in template.")
            end
          else if Ascii.eqb c "}" then
            match rest with
            | String c' rest' =>
                if Ascii.eqb c' "}"
                then flush_to text (cons_node (Literal "}") (scan (InLiteral "") rest'))
                else inl (JsError "Error" "Single '}' in template.")
            | EmptyString => inl (JsError "Error" "Single '}' in template.")
            end
          else scan (InLiteral (snoc text c)) rest
      end
  end.

Definition parseFString (template : string) : thrown + list node :=
  scan (InLiteral "") template.

(** The values object handed to a template: an object literal, later
    entries of a spread being shadowed by putting them last. *)
Definition values := list (string * js_string).

Fixpoint lookup (name : string) (vs : values) : option js_string :=
  match vs with
  | [] => None
  | (k, v) :: vs' => if k =? name then Some v else lookup name vs'
  end.

(** [interpolateFString]: literals are copied, a slot is replaced by the
    value bound to its name; a slot with no binding is an error. *)
Fixpoint interpolate (ns : list node) (vs : values) : thrown + string :=
  match ns with
  | [] => inr ""
  | Literal text :: ns' =>
      match interpolate ns' vs with
      | inl e => inl e
      | inr out => inr (text ++ out)
      end
  | Variable_ name :: ns' =>
      match lookup name vs with
      | None => inl (JsError "Error" ("(f-string) Missing value for input " ++ name))
      | Some v =>
          match interpolate ns' vs with
          | inl e => inl e
          | inr out => inr (to_text v ++ out)
          end
      end
  end.

Definition render (template : string) (vs : values) : thrown + string :=
  match parseFString template with
  | inl e => inl e
  | inr ns => interpolate ns vs
  end.

End FString.

(** [PromptTemplate]: the template text, the variables supplied per call
    and the variables fixed when the template is built. *)
Record PromptTemplate : Type := {
  template : string;
  inputVariables : list string;
  partialVariables : list (string * string)
}.

(** [PromptTemplate.format(values)]: the per-call values are spread over
    the partial ones, and the template is rendered with the result. *)
Definition PromptTemplate_format (pt : PromptTemplate) (user : FString.values)
  : thrown + string :=
  FString.render pt.(template)
    (user ++ map (fun kv => (fst kv, Some (snd kv))) pt.(partialVariables))%list.

(** The fifteen keys the prompt asks the model for. *)
Definition requested_keys : list string :=
  [ "date-day1"; "day-of-the-week-day1"; "day1";
    "date-day2"; "day-of-the-week-day2"; "day2";
    "date-day3"; "day-of-the-week-day3"; "day3";
    "date-day4"; "day-of-the-week-day4"; "day4";
    "date-day5"; "day-of-the-week-day5"; "day5" ].

Definition template_head : string :=
  "You are a sports announcer. Provide an exciting and energetic play-by-play of the weather forecast for ".

Definition template_tail : string :=
  ". Make it sound like a thrilling sports commentary! Return the forcast as a JSON object with each day forecast as a property. The keys should be "
  ++ String.concat ", " (map quoted requested_keys)
  ++ ". The JSON should be properly formatted. The first day should be today.".

Definition template_text : string :=
  template_head ++ "{location}" ++ template_tail.

(** [promptTemplate], given the instructions rendered by the output parser. *)
Definition promptTemplate (formatInstructions : string) : PromptTemplate :=
  {| template := template_text;
     inputVariables := ["location"];
     partialVariables := [("format_instructions", formatInstructions)] |}.

(* ================================================================== *)
(** * The output schema *)
(* ================================================================== *)

(** The Zod object handed to [StructuredOutputParser.fromZodSchema]: five
    required keys, each [z.string()]. *)
Definition schema_keys : list string := ["day1"; "day2"; "day3"; "day4"; "day5"].

(** [StructuredOutputParser.fromZodSchema(z.object({...}).describe(...))]:
    the keys of the object, each a string, and the description. *)
Record StructuredOutputParser : Type := {
  schema : list string;
  description : string
}.

Definition parser : StructuredOutputParser :=
  {| schema := schema_keys;
     description := "A JSON object with the forecast for the next 5 days" |}.

Fixpoint field (k : string) (fields : list (string * json)) : option json :=
  match fields with
  | [] => None
  | (k', v) :: rest => if k' =? k then Some v else field k rest
  end.

Definition is_string (v : json) : bool :=
  match v with
  | JStr _ => true
  | _ => false
  end.

(** What a parser accepts: an object in which every key of its schema is
    bound to a string (a Zod object lets other keys pass). *)
Definition matches_schema (sp : StructuredOutputParser) (v : json) : bool :=
  match v with
  | JObj fields =>
      forallb (fun k => match field k fields with
                        | Some x => is_string x
                        | None => false
                        end) sp.(schema)
  | _ => false
  end.

(** The object has exactly the given keys, each bound to a string. *)
Definition has_exactly_keys (keys : list string) (v : json) : bool :=
  match v with
  | JObj fields =>
      forallb (fun k => existsb (String.eqb k) (map fst fields)) keys
      && forallb (fun kv => existsb (String.eqb (fst kv)) keys && is_string (snd kv)) fields
  | _ => false
  end.

(* ================================================================== *)
(** * The world of a running server *)
(* ================================================================== *)

(** The options object of [new OpenAI({...})]. *)
Record ModelConfig : Type := {
  temperature : Q;
  openAIApiKey : string;
  modelName : string
}.

(** [OutputFixingParser.fromLLM(model, parser)]: the client it would ask
    for a repair, and the parser it wraps. *)
Record OutputFixingParser : Type := {
  llm : ModelConfig;
  wrapped : StructuredOutputParser
}.

(** One request sent to the hosted model: the configuration of the client
    that sent it, and the prompt. *)
Record Call : Type := {
  call_config : ModelConfig;
  call_prompt : string
}.

Inductive stream : Type := Stdout | Stderr.

Inductive log_arg : Type :=
| LogText (s : string)
| LogThrown (e : thrown).

(** A console line: [console.log] writes to [Stdout], [console.error] to
    [Stderr]; the arguments are kept as they were passed. *)
Definition log_line : Type := stream * list log_arg.

(** Express's response object: the status code that the next write will
    use, and what has been written to the client, if anything. *)
Record Response : Type := {
  statusCode : nat;
  sent : option (nat * json)
}.

Definition fresh_response : Response := {| statusCode := 200; sent := None |}.

Record World : Type := {
  res : Response;
  console : list log_line;
  calls : list Call
}.

(** What the hosted model does with a call. *)
Inductive completion : Type :=
| Completed (raw : json)
| Raised (e : thrown).

Inductive parse_result : Type :=
| Parsed (v : json)
| SyntaxError (message : string).

(** Everything the script takes from outside its own text: the hosted model
    (which may answer differently depending on the calls made before),
    the runtime's [JSON.parse], and the library's rendering of a parser's
    schema as instructions text. *)
Record Environment : Type := {
  provider : list Call -> Call -> completion;
  JSON_parse : string -> parse_result;
  getFormatInstructions : OutputFixingParser -> string
}.

(* ================================================================== *)
(** * Computations: state and exceptions *)
(* ================================================================== *)

Inductive outcome (A : Type) : Type :=
| Returned (a : A)
| Thrown (e : thrown).

Arguments Returned {A} a.
Arguments Thrown {A} e.

Definition M (A : Type) : Type := World -> outcome A * World.

Definition ret {A} (a : A) : M A := fun w => (Returned a, w).

Definition bind {A B} (m : M A) (k : A -> M B) : M B :=
  fun w =>
    match m w with
    | (Returned a, w') => k a w'
    | (Thrown e, w') => (Thrown e, w')
    end.

Definition throw {A} (e : thrown) : M A := fun w => (Thrown e, w).

(** [try { body } catch (error) { handler }] *)
Definition try_catch {A} (body : M A) (handler : thrown -> M A) : M A :=
  fun w =>
    match body w with
    | (Returned a, w') => (Returned a, w')
    | (Thrown e, w') => handler e w'
    end.

Declare Scope js_scope.
Delimit Scope js_scope with js.
Notation "x <- m ;; k" := (bind m (fun x => k))
  (at level 61, m at next level, right associativity) : js_scope.
Notation "m ;; k" := (bind m (fun _ => k))
  (at level 61, right associativity) : js_scope.
Open Scope js_scope.

(** [console.error(...args)] *)
Definition console_error (args : list log_arg) : M unit :=
  fun w => (Returned tt,
            {| res := w.(res);
               console := (w.(console) ++ [(Stderr, args)])%list;
               calls := w.(calls) |}).

(** [res.status(code)] only records the code. *)
Definition res_status (code : nat) : M unit :=
  fun w => (Returned tt,
            {| res := {| statusCode := code; sent := w.(res).(sent) |};
               console := w.(console);
               calls := w.(calls) |}).

Definition headers_sent : thrown :=
  JsError "Error" "Cannot set headers after they are sent to the client".

(** [res.json(body)] writes the response with the recorded status code; a
    response can be written once, and a second write is refused with an
    [Error]. *)
Definition res_json (body : json) : M unit :=
  fun w =>
    match w.(res).(sent) with
    | Some _ => (Thrown headers_sent, w)
    | None =>
        (Returned tt,
         {| res := {| statusCode := w.(res).(statusCode);
                      sent := Some (w.(res).(statusCode), body) |};
            console := w.(console);
            calls := w.(calls) |})
    end.

(** [model.invoke(prompt)]: the call is made, then the model answers or
    the call raises. *)
Definition model_invoke (env : Environment) (cfg : ModelConfig) (prompt : string)
  : M json :=
  fun w =>
    let c := {| call_config := cfg; call_prompt := prompt |} in
    let w' := {| res := w.(res);
                 console := w.(console);
                 calls := (w.(calls) ++ [c])%list |} in
    match env.(provider) w.(calls) c with
    | Completed raw => (Returned raw, w')
    | Raised e => (Thrown e, w')
    end.

(** [JSON.parse(text)] *)
Definition JSON_parse_call (env : Environment) (text : string) : M json :=
  match env.(JSON_parse) text with
  | Parsed v => ret v
  | SyntaxError msg => throw (JsError "SyntaxError" msg)
  end.

(** A pure result that may be an exception. *)
Definition lift {A} (r : thrown + A) : M A :=
  match r with
  | inl e => throw e
  | inr a => ret a
  end.

(* ================================================================== *)
(** * The script *)
(* ================================================================== *)

(** [process.env], as it is after [dotenv.config()]. *)
Record ProcessEnv : Type := {
  PORT : option string;
  OPENAI_API_KEY : option string
}.

(** [process.env.PORT || 3001]: the text of the variable, or the number
    3001. *)
Inductive port_value : Type :=
| PortText (s : string)
| DefaultPort.

(** The values bound at the top level of the script once the credential
    check has passed. *)
Record Server : Type := {
  port : port_value;
  model : ModelConfig;
  outputFixingParser : OutputFixingParser;
  formatInstructions : string;
  promptTemplate_ : PromptTemplate
}.

Definition port_of (penv : ProcessEnv) : port_value :=
  if truthy penv.(PORT) then PortText (to_text penv.(PORT)) else DefaultPort.

(** [new OpenAI({...})] *)
Definition new_model (apiKey : string) : ModelConfig :=
  {| temperature := 0;
     openAIApiKey := apiKey;
     modelName := "gpt-3.5-turbo" |}.

(** Lines 20 to 52: the model client, the parsers, the instructions and the
    template are built once, from the credential that passed the check. *)
Definition initialize (env : Environment) (p : port_value) (apiKey : string) : Server :=
  let model := new_model apiKey in
  let outputFixingParser := {| llm := model; wrapped := parser |} in
  let formatInstructions := env.(getFormatInstructions) outputFixingParser in
  {| port := p;
     model := model;
     outputFixingParser := outputFixingParser;
     formatInstructions := formatInstructions;
     promptTemplate_ := promptTemplate formatInstructions |}.

Inductive startup_result : Type :=
| Exited (code : nat)
| Listening (srv : Server).

Definition port_text (p : port_value) : list log_arg :=
  match p with
  | PortText s => [LogText ("Server is running on http://localhost:" ++ s)]
  | DefaultPort => [LogText "Server is running on http://localhost:3001"]
  end.

(** The script from its first line to [app.listen]: with no credential the
    process logs and exits with code 1 before anything else is built.
    With one, [app.listen] is taken to succeed. *)
Definition startup (env : Environment) (penv : ProcessEnv)
  : list log_line * startup_result :=
  let p := port_of penv in
  let apiKey := penv.(OPENAI_API_KEY) in
  if negb (truthy apiKey)
  then ([(Stderr, [LogText "OPENAI_API_KEY is not defined. Exiting..."])], Exited 1)
  else
    let srv := initialize env p (to_text apiKey) in
    ([(Stdout, port_text p)], Listening srv).

(** [promptFunc] *)
Definition promptFunc (env : Environment) (srv : Server) (input : js_string) : M json :=
  try_catch
    (promptInput <- lift (PromptTemplate_format srv.(promptTemplate_)
                            [("location", input)]) ;;
     res <- model_invoke env srv.(model) promptInput ;;
     match res with
     | JStr text => JSON_parse_call env text
     | _ => ret res
     end)
    (fun error =>
       console_error [LogText "Error:"; LogThrown error] ;;
       throw error).

(** [req.body], of which the handler reads [location], declared a string;
    a body without that field gives [undefined]. *)
Record Request : Type := {
  body_location : js_string
}.

Definition message_of (e : thrown) : string :=
  match e with
  | JsError _ msg => msg
  | JsNonError _ => ""
  end.

Definition missing_location_body : json :=
  JObj [("error", JStr "Please provide a location in the request body.")].

Definition internal_error_body : json :=
  JObj [("error", JStr "Internal Server Error")].

(** The handler of [app.post('/forecast', ...)]. *)
Definition forecast_handler (env : Environment) (srv : Server) (req : Request)
  : M unit :=
  try_catch
    (let location := req.(body_location) in
     (if negb (truthy location)
      then res_status 400 ;; res_json missing_location_body
      else ret tt) ;;
     result <- promptFunc env srv location ;;
     res_json (JObj [("result", result)]))
    (fun error =>
       (if instanceof_Error error
        then console_error [LogText "Error:"; LogText (message_of error)]
        else ret tt) ;;
       res_status 500 ;;
       res_json internal_error_body).

(** One request: Express hands the handler a response object of its own;
    the console and the model are those of the process. *)
Definition handle_request (env : Environment) (srv : Server) (req : Request)
  : M unit :=
  fun w =>
    forecast_handler env srv req
      {| res := fresh_response; console := w.(console); calls := w.(calls) |}.

(** What the client received for the request. *)
Definition response_of (r : outcome unit * World) : option (nat * json) :=
  (snd r).(res).(sent).

(** The server over a sequence of requests: each is handled in turn, and
    what each client received is collected. *)
Fixpoint serve (env : Environment) (srv : Server) (reqs : list Request) (w : World)
  : list (option (nat * json)) * World :=
  match reqs with
  | [] => ([], w)
  | req :: rest =>
      let r := handle_request env srv req w in
      let '(responses, w') := serve env srv rest (snd r) in
      (response_of r :: responses, w')
  end.

(** A whole process: the script starts, and if it reaches [app.listen] the
    requests that arrive are served.  Whether the process survives an
    exception that escapes a handler is the runtime's decision; serving on
    is the larger behaviour, the other one stops after a prefix of it. *)
Record Run : Type := {
  exit_code : option nat;
  responses : list (option (nat * json));
  final_console : list log_line;
  final_calls : list Call
}.

Definition run_process (env : Environment) (penv : ProcessEnv) (reqs : list Request)
  : Run :=
  match startup env penv with
  | (lines, Exited code) =>
      {| exit_code := Some code; responses := [];
         final_console := lines; final_calls := [] |}
  | (lines, Listening srv) =>
      let '(rs, w) := serve env srv reqs
                        {| res := fresh_response; console := lines; calls := [] |} in
      {| exit_code := None; responses := rs;
         final_console := w.(console); final_calls := w.(calls) |}
  end.

(* ================================================================== *)
(** * Vocabulary for the statements *)
(* ================================================================== *)

(** The prompt that reaches the model for a location. *)
Definition prompt_text (location : js_string) : string :=
  template_head ++ to_text location ++ template_tail.

(** The one call a request makes. *)
Definition forecast_call (srv : Server) (location : js_string) : Call :=
  {| call_config := srv.(model); call_prompt := prompt_text location |}.

(** The value [promptFunc] returns for a raw completion, when it returns:
    a string is parsed, anything else is passed on. *)
Definition parsed_output (env : Environment) (raw : json) : option json :=
  match raw with
  | JStr text =>
      match env.(JSON_parse) text with
      | Parsed v => Some v
      | SyntaxError _ => None
      end
  | _ => Some raw
  end.

(** Calls made to the model between two worlds, and those among them that
    come after the first one, which is what a repair call would be. *)
Definition completion_calls (before after : World) : nat :=
  List.length after.(calls) - List.length before.(calls).

Definition repair_calls (before after : World) : nat :=
  completion_calls before after - 1.

(** World updates, named so that runs can be written down. *)
Definition start (w : World) : World :=
  {| res := fresh_response; console := w.(console); calls := w.(calls) |}.

Definition add_call (c : Call) (w : World) : World :=
  {| res := w.(res); console := w.(console); calls := (w.(calls) ++ [c])%list |}.

Definition add_line (l : log_line) (w : World) : World :=
  {| res := w.(res); console := (w.(console) ++ [l])%list; calls := w.(calls) |}.

Definition set_status (code : nat) (w : World) : World :=
  {| res := {| statusCode := code; sent := w.(res).(sent) |};
     console := w.(console); calls := w.(calls) |}.

Definition respond (code : nat) (body : json) (w : World) : World :=
  {| res := {| statusCode := code; sent := Some (code, body) |};
     console := w.(console); calls := w.(calls) |}.

(** The line [promptFunc] writes when it catches, and the one the handler
    writes when it catches an [Error]. *)
Definition pipeline_line (e : thrown) : log_line :=
  (Stderr, [LogText "Error:"; LogThrown e]).

Definition endpoint_line (e : thrown) : log_line :=
  (Stderr, [LogText "Error:"; LogText (message_of e)]).

(** The console after the handler's [catch] block has looked at [e]. *)
Definition caught (e : thrown) (w : World) : World :=
  if instanceof_Error e then add_line (endpoint_line e) w else w.

Fixpoint is_prefix (p s : string) : bool :=
  match p, s with
  | EmptyString, _ => true
  | String a p', String b s' => Ascii.eqb a b && is_prefix p' s'
  | String _ _, EmptyString => false
  end.

(** [needle] occurs somewhere in [hay]. *)
Fixpoint contains (needle hay : string) : bool :=
  is_prefix needle hay
  || match hay with
     | EmptyString => false
     | String _ hay' => contains needle hay'
     end.

(** A hosted model whose answer to a call does not depend on the calls
    made before it. *)
Definition stateless (env : Environment) : Prop :=
  forall (h1 h2 : list Call) (c : Call),
    env.(provider) h1 c = env.(provider) h2 c.

(** The three responses the handler can write. *)
Definition answered (r : option (nat * json)) : Prop :=
  (exists v, r = Some (200, JObj [("result", v)]))
  \/ r = Some (400, missing_location_body)
  \/ r = Some (500, internal_error_body).

(** A process that has served nothing yet. *)
Definition idle : World :=
  {| res := fresh_response; console := []; calls := [] |}.

(** The console lines a request adds, given how [promptFunc] ended. *)
Definition request_lines (location : js_string) (o : outcome json)
  : list log_line :=
  match o with
  | Returned _ =>
      if truthy location then [] else [endpoint_line headers_sent]
  | Thrown e =>
      pipeline_line e :: if instanceof_Error e then [endpoint_line e] else []
  end.

(** The same environment, except for the instructions text the library
    renders for a parser. *)
Definition with_instructions (env : Environment)
           (render : OutputFixingParser -> string) : Environment :=
  {| provider := env.(provider);
     JSON_parse := env.(JSON_parse);
     getFormatInstructions := render |}.

(* ================================================================== *)
(** * Sample environments *)
(* ================================================================== *)

Module Sample.

(** A well-formed forecast, as text and as the value it denotes. *)
Definition forecast_fields : list (string * json) :=
  map (fun k => (k, JStr "Sunny and 75, folks!")) schema_keys.

Definition pair_text (kv : string * json) : string :=
  match snd kv with
  | JStr s => quoted (fst kv) ++ ":" ++ quoted s
  | _ => quoted (fst kv) ++ ":null"
  end.

Definition forecast_text : string :=
  "{" ++ String.concat "," (map pair_text forecast_fields) ++ "}".

(** [JSON.parse] on the completions used below: the forecast object and
    the empty array are parsed, a plain sentence is refused.  No other
    text is given to it. *)
Definition parse (text : string) : parse_result :=
  if text =? forecast_text then Parsed (JObj forecast_fields)
  else if text =? "[]" then Parsed (JArr [])
  else SyntaxError ("Unexpected token in JSON: " ++ text).

Definition instructions : string :=
  "You must format your output as a JSON value that adheres to a given JSON Schema instance.".

(** A model that answers every prompt in the same way. *)
Definition answering (c : completion) : Environment :=
  {| provider := fun _ _ => c;
     JSON_parse := parse;
     getFormatInstructions := fun _ => instructions |}.

Definition penv : ProcessEnv :=
  {| PORT := None; OPENAI_API_KEY := Some "sk-test" |}.

Definition penv_no_key : ProcessEnv :=
  {| PORT := Some "8080"; OPENAI_API_KEY := None |}.

Definition server (env : Environment) : Server :=
  initialize env DefaultPort "sk-test".

Definition world : World :=
  {| res := fresh_response; console := []; calls := [] |}.

Definition seattle : Request := {| body_location := Some "Seattle" |}.
Definition paris : Request := {| body_location := Some "Paris" |}.
Definition empty_location : Request := {| body_location := Some "" |}.
Definition no_location : Request := {| body_location := None |}.

Definition quota_error : thrown :=
  JsError "Error" "429 You exceeded your current quota".

End Sample.

(* ================================================================== *)
(** * The prompt *)
(* ================================================================== *)

Lemma append_nil_r (s : string) : s ++ "" = s.
Proof.
  induction s as [| c s IH]; simpl; [reflexivity | now rewrite IH].
Qed.

(** The template has one slot, [location], between two literal texts. *)
Lemma parse_template_text :
  FString.parseFString template_text
  = inr [FString.Literal template_head;
         FString.Variable_ "location";
         FString.Literal template_tail].
Proof. vm_compute. reflexivity. Qed.

(** The template of the script parses, so building it does not fail. *)
Example template_is_well_formed :
  exists ns, FString.parseFString template_text = inr ns.
Proof. eexists. apply parse_template_text. Qed.

(** Rendering never fails and yields the two literals around the location,
    whatever the instructions bound to [format_instructions] are. *)
Lemma format_location (fi : string) (location : js_string) :
  PromptTemplate_format (promptTemplate fi) [("location", location)]
  = inr (prompt_text location).
Proof.
  unfold PromptTemplate_format, FString.render, promptTemplate; simpl template.
  rewrite parse_template_text.
  cbn [FString.interpolate FString.lookup app map fst snd partialVariables
       String.eqb Ascii.eqb Bool.eqb].
  unfold prompt_text. now rewrite append_nil_r.
Qed.

(* ================================================================== *)
(** * Runs of [promptFunc] and of the handler *)
(* ================================================================== *)

Section Service.

Variable env : Environment.
Variable p : port_value.
Variable apiKey : string.

Local Abbreviation srv := (initialize env p apiKey).

(** [promptFunc] in closed form: one call, then the three ways on. *)
Lemma promptFunc_run (location : js_string) (w : World) :
  promptFunc env srv location w =
  let c := forecast_call srv location in
  let w1 := add_call c w in
  match env.(provider) w.(calls) c with
  | Raised e => (Thrown e, add_line (pipeline_line e) w1)
  | Completed (JStr text) =>
      match env.(JSON_parse) text with
      | Parsed v => (Returned v, w1)
      | SyntaxError msg =>
          (Thrown (JsError "SyntaxError" msg),
           add_line (pipeline_line (JsError "SyntaxError" msg)) w1)
      end
  | Completed raw => (Returned raw, w1)
  end.
Proof.
  unfold promptFunc, try_catch, bind; simpl promptTemplate_.
  rewrite format_location. simpl lift. unfold ret at 1.
  unfold model_invoke, forecast_call, add_call; simpl model.
  destruct (provider env (calls w) _) as [raw | e]; [| reflexivity].
  destruct raw; try reflexivity.
  unfold JSON_parse_call.
  destruct (JSON_parse env s); reflexivity.
Qed.

(** [promptFunc] writes no response. *)
Lemma promptFunc_res (location : js_string) (w : World) :
  (snd (promptFunc env srv location w)).(res) = w.(res).
Proof.
  rewrite promptFunc_run; simpl.
  destruct (provider env (calls w) _) as [raw | e]; [| reflexivity].
  destruct raw; try reflexivity.
  destruct (JSON_parse env s); reflexivity.
Qed.

(** It makes exactly one call, whatever happens next. *)
Lemma promptFunc_calls (location : js_string) (w : World) :
  (snd (promptFunc env srv location w)).(calls)
  = (w.(calls) ++ [forecast_call srv location])%list.
Proof.
  rewrite promptFunc_run; simpl.
  destruct (provider env (calls w) _) as [raw | e]; [| reflexivity].
  destruct raw; try reflexivity.
  destruct (JSON_parse env s); reflexivity.
Qed.

(** A request whose location passes the check. *)
Lemma handle_request_accepted (location : js_string) (w : World) :
  truthy location = true ->
  handle_request env srv {| body_location := location |} w =
  match promptFunc env srv location (start w) with
  | (Returned v, w1) => (Returned tt, respond 200 (JObj [("result", v)]) w1)
  | (Thrown e, w1) => (Returned tt, respond 500 internal_error_body (caught e w1))
  end.
Proof.
  intros Hloc.
  pose proof (promptFunc_res location (start w)) as Hres.
  unfold handle_request, forecast_handler, try_catch, bind.
  cbv zeta. cbn [body_location]. rewrite Hloc. cbn [negb].
  unfold ret at 1. fold (start w).
  destruct (promptFunc env srv location (start w)) as [[v | e] w1];
    simpl in Hres.
  - unfold res_json, respond. rewrite Hres. reflexivity.
  - unfold caught, res_status, res_json, respond, console_error, add_line, ret.
    destruct (instanceof_Error e); simpl; rewrite Hres; reflexivity.
Qed.

(** A request whose location is missing or empty: the 400 response is
    written, and the handler goes on. *)
Lemma handle_request_rejected (location : js_string) (w : World) :
  truthy location = false ->
  handle_request env srv {| body_location := location |} w =
  match promptFunc env srv location
          (respond 400 missing_location_body (start w)) with
  | (Returned v, w1) => (Thrown headers_sent, set_status 500 (caught headers_sent w1))
  | (Thrown e, w1) => (Thrown headers_sent, set_status 500 (caught e w1))
  end.
Proof.
  intros Hloc.
  pose proof (promptFunc_res location
                (respond 400 missing_location_body (start w))) as Hres.
  unfold handle_request, forecast_handler, try_catch, bind.
  cbv zeta. cbn [body_location]. rewrite Hloc. cbn [negb].
  fold (start w).
  unfold res_status at 1. cbv beta iota.
  change (res_json missing_location_body _)
    with (Returned tt, respond 400 missing_location_body (start w)).
  cbv beta iota.
  destruct (promptFunc env srv location _) as [[v | e] w1]; simpl in Hres.
  - unfold res_json at 1. rewrite Hres.
    unfold res_status, res_json, console_error, set_status, caught, add_line; simpl.
    rewrite Hres. reflexivity.
  - unfold caught, res_status, res_json, console_error, set_status, add_line, ret.
    destruct (instanceof_Error e); simpl; rewrite Hres; reflexivity.
Qed.

(** Every request makes exactly one call to the model, and it is made
    with the configuration built at start-up. *)
Lemma handle_request_calls (req : Request) (w : World) :
  (snd (handle_request env srv req w)).(calls)
  = (w.(calls) ++ [forecast_call srv req.(body_location)])%list.
Proof.
  destruct req as [location]; cbn [body_location].
  destruct (truthy location) eqn:Hloc.
  - rewrite (handle_request_accepted _ w Hloc).
    pose proof (promptFunc_calls location (start w)) as Hc.
    destruct (promptFunc env srv location (start w)) as [[v | e] w1];
      simpl in Hc; simpl; [exact Hc |].
    unfold caught; destruct (instanceof_Error e); exact Hc.
  - rewrite (handle_request_rejected _ w Hloc).
    pose proof (promptFunc_calls location
                  (respond 400 missing_location_body (start w))) as Hc.
    destruct (promptFunc env srv location _) as [[v | e] w1];
      simpl in Hc; simpl; [exact Hc |].
    unfold caught; destruct (instanceof_Error e); exact Hc.
Qed.

Lemma handle_request_one_call (req : Request) (w : World) :
  completion_calls w (snd (handle_request env srv req w)) = 1
  /\ repair_calls w (snd (handle_request env srv req w)) = 0.
Proof.
  unfold repair_calls, completion_calls.
  rewrite handle_request_calls, length_app; simpl. lia.
Qed.

(** Once the 400 response is written it is what the client has: nothing
    the rest of the handler does replaces it, and the handler's own 500
    write is refused. *)
Lemma rejected_response (location : js_string) (w : World) :
  truthy location = false ->
  let r := handle_request env srv {| body_location := location |} w in
  response_of r = Some (400, missing_location_body)
  /\ fst r = Thrown headers_sent.
Proof.
  intros Hloc r; subst r. unfold response_of.
  rewrite (handle_request_rejected _ w Hloc).
  pose proof (promptFunc_res location
                (respond 400 missing_location_body (start w))) as Hres.
  destruct (promptFunc env srv location _) as [[v | e] w1];
    simpl in Hres; unfold caught.
  - simpl. rewrite Hres. split; reflexivity.
  - destruct (instanceof_Error e); simpl; rewrite Hres; split; reflexivity.
Qed.

(** A 200 response is only ever written for a location that passed the
    check. *)
Lemma ok_response_needs_location (req : Request) (w : World) (body : json) :
  response_of (handle_request env srv req w) = Some (200, body) ->
  truthy req.(body_location) = true.
Proof.
  destruct req as [location]; cbn [body_location].
  destruct (truthy location) eqn:Hloc; [reflexivity |].
  destruct (rejected_response location w Hloc) as [H _].
  rewrite H. discriminate.
Qed.

(** The model raises, on a request that passed the check: both [catch]
    blocks run, the 500 response is written. *)
Lemma accepted_provider_error (location : js_string) (w : World) (e : thrown) :
  truthy location = true ->
  env.(provider) w.(calls) (forecast_call srv location) = Raised e ->
  handle_request env srv {| body_location := location |} w
  = (Returned tt,
     respond 500 internal_error_body
       (caught e (add_line (pipeline_line e)
                    (add_call (forecast_call srv location) (start w))))).
Proof.
  intros Hloc Hraise.
  rewrite (handle_request_accepted _ w Hloc), promptFunc_run.
  cbv zeta. change (calls (start w)) with (calls w). rewrite Hraise.
  reflexivity.
Qed.

(** The model answers with text that [JSON.parse] refuses. *)
Lemma accepted_syntax_error (location : js_string) (w : World)
      (text msg : string) :
  truthy location = true ->
  env.(provider) w.(calls) (forecast_call srv location) = Completed (JStr text) ->
  env.(JSON_parse) text = SyntaxError msg ->
  handle_request env srv {| body_location := location |} w
  = (Returned tt,
     respond 500 internal_error_body
       (add_line (endpoint_line (JsError "SyntaxError" msg))
          (add_line (pipeline_line (JsError "SyntaxError" msg))
             (add_call (forecast_call srv location) (start w))))).
Proof.
  intros Hloc Hdone Hparse.
  rewrite (handle_request_accepted _ w Hloc), promptFunc_run.
  cbv zeta. change (calls (start w)) with (calls w). rewrite Hdone, Hparse.
  reflexivity.
Qed.

(** The model answers and [promptFunc] returns. *)
Lemma accepted_output (location : js_string) (w : World) (raw v : json) :
  truthy location = true ->
  env.(provider) w.(calls) (forecast_call srv location) = Completed raw ->
  parsed_output env raw = Some v ->
  handle_request env srv {| body_location := location |} w
  = (Returned tt,
     respond 200 (JObj [("result", v)])
       (add_call (forecast_call srv location) (start w))).
Proof.
  intros Hloc Hdone Hout.
  rewrite (handle_request_accepted _ w Hloc), promptFunc_run.
  cbv zeta. change (calls (start w)) with (calls w). rewrite Hdone.
  unfold parsed_output in Hout.
  destruct raw; try (injection Hout as <-; reflexivity).
  destruct (JSON_parse env s); [injection Hout as <-; reflexivity | discriminate].
Qed.

End Service.

(* ================================================================== *)
(** * The server over many requests *)
(* ================================================================== *)

(** Serving requests only ever appends calls made with the start-up
    configuration. *)
Lemma serve_calls (env : Environment) (p : port_value) (apiKey : string)
      (reqs : list Request) (w : World) :
  (snd (serve env (initialize env p apiKey) reqs w)).(calls)
  = (w.(calls)
     ++ map (fun req => forecast_call (initialize env p apiKey) req.(body_location))
          reqs)%list.
Proof.
  revert w; induction reqs as [| req rest IH]; intros w; simpl.
  - now rewrite app_nil_r.
  - specialize (IH (snd (handle_request env (initialize env p apiKey) req w))).
    destruct (serve env (initialize env p apiKey) rest _) as [rs w'].
    simpl in *. rewrite IH, handle_request_calls, <- app_assoc. reflexivity.
Qed.

Lemma startup_listening (env : Environment) (penv : ProcessEnv)
      (lines : list log_line) (srv : Server) :
  startup env penv = (lines, Listening srv) ->
  exists key,
    penv.(OPENAI_API_KEY) = Some key /\ key <> ""
    /\ srv = initialize env (port_of penv) key.
Proof.
  unfold startup. destruct (OPENAI_API_KEY penv) as [key |]; simpl.
  - destruct (key =? "") eqn:Hkey; simpl; [discriminate |].
    intros H; injection H as _ <-. exists key. repeat split.
    intros ->. discriminate.
  - discriminate.
Qed.

(** A process with a credential serves a request about Seattle: one call,
    one 200 response carrying the forecast. *)
Example process_serves_seattle :
  let env := Sample.answering (Completed (JStr Sample.forecast_text)) in
  let run := run_process env Sample.penv [Sample.seattle] in
  run.(exit_code) = None
  /\ run.(responses) = [Some (200, JObj [("result", JObj Sample.forecast_fields)])]
  /\ run.(final_console)
     = [(Stdout, [LogText "Server is running on http://localhost:3001"])]
  /\ List.length run.(final_calls) = 1.
Proof. vm_compute. repeat split. Qed.

(** A body with no [location] at all: the 400 response is written, the
    model is still called, and the second write is refused and logged. *)
Example missing_location_run :
  let env := Sample.answering (Completed (JStr Sample.forecast_text)) in
  let r := handle_request env (Sample.server env) Sample.no_location Sample.world in
  response_of r = Some (400, missing_location_body)
  /\ fst r = Thrown headers_sent
  /\ (snd r).(console) = [endpoint_line headers_sent]
  /\ map call_prompt (snd r).(calls) = [prompt_text None].
Proof. vm_compute. repeat split. Qed.

(* ================================================================== *)
(** * The claims *)
(* ================================================================== *)

(** C1 (the code departs from it).  A request whose [location] is missing
    or empty does get the 400 response with the message asking for a
    location, but the handler does not stop there: [promptFunc] runs and
    the model is called once for that request. *)
Theorem C1_rejected_request_still_calls_model
        (env : Environment) (p : port_value) (apiKey : string)
        (location : js_string) (w : World) :
  truthy location = false ->
  let srv := initialize env p apiKey in
  let r := handle_request env srv {| body_location := location |} w in
  response_of r = Some (400, missing_location_body)
  /\ (snd r).(calls) = (w.(calls) ++ [forecast_call srv location])%list
  /\ completion_calls w (snd r) = 1.
Proof.
  intros Hloc srv r; subst srv r.
  split; [apply (rejected_response env p apiKey location w Hloc) |].
  split; [apply (handle_request_calls env p apiKey {| body_location := location |}) |].
  apply handle_request_one_call.
Qed.

Lemma C1_witness :
  let env := Sample.answering (Completed (JStr Sample.forecast_text)) in
  let r := handle_request env (Sample.server env) Sample.empty_location Sample.world in
  response_of r = Some (400, missing_location_body)
  /\ (snd r).(calls) = [forecast_call (Sample.server env) (Some "")]
  /\ completion_calls Sample.world (snd r) = 1.
Proof.
  exact (C1_rejected_request_still_calls_model
           (Sample.answering (Completed (JStr Sample.forecast_text)))
           DefaultPort "sk-test" (Some "") Sample.world eq_refl).
Defined.

(** C2, as stated, fails: the model answers with a sentence that is not
    JSON, so the first parse fails, and no repair call follows. *)
Lemma C2_counterexample :
  let env := Sample.answering (Completed (JStr "sunny")) in
  let r := handle_request env (Sample.server env) Sample.seattle Sample.world in
  parsed_output env (JStr "sunny") = None
  /\ completion_calls Sample.world (snd r) = 1
  /\ repair_calls Sample.world (snd r) <> 1.
Proof. vm_compute. repeat split. discriminate. Qed.

(** C2 (amended).  A request with a non-empty location never issues a
    repair call: it makes exactly one call to the model.  When the model's
    text is not JSON, the syntax error is final and the response is the
    generic 500. *)
Theorem C2_parse_failure_is_final
        (env : Environment) (p : port_value) (apiKey : string)
        (location : js_string) (w : World) :
  truthy location = true ->
  let srv := initialize env p apiKey in
  let r := handle_request env srv {| body_location := location |} w in
  completion_calls w (snd r) = 1
  /\ repair_calls w (snd r) = 0
  /\ forall text msg,
       env.(provider) w.(calls) (forecast_call srv location)
         = Completed (JStr text) ->
       env.(JSON_parse) text = SyntaxError msg ->
       response_of r = Some (500, internal_error_body).
Proof.
  intros Hloc srv r; subst srv r.
  destruct (handle_request_one_call env p apiKey
              {| body_location := location |} w) as [H1 H0].
  repeat split; [exact H1 | exact H0 |].
  intros text msg Hdone Hparse.
  rewrite (accepted_syntax_error env p apiKey location w text msg Hloc Hdone Hparse).
  reflexivity.
Qed.

Lemma C2_witness :
  let env := Sample.answering (Completed (JStr "sunny")) in
  let r := handle_request env (Sample.server env) Sample.seattle Sample.world in
  completion_calls Sample.world (snd r) = 1
  /\ repair_calls Sample.world (snd r) = 0
  /\ response_of r = Some (500, internal_error_body).
Proof.
  pose proof (C2_parse_failure_is_final
                (Sample.answering (Completed (JStr "sunny")))
                DefaultPort "sk-test" (Some "Seattle") Sample.world eq_refl)
    as [H1 [H0 H500]].
  split; [exact H1 |]. split; [exact H0 |].
  exact (H500 "sunny" "Unexpected token in JSON: sunny" eq_refl eq_refl).
Defined.

(** C3, as stated, fails: the model answers with an empty array, the
    pipeline succeeds, and the 200 response carries that array, which has
    neither the five keys of the schema nor the fifteen of the prompt. *)
Lemma C3_counterexample :
  let env := Sample.answering (Completed (JStr "[]")) in
  let r := handle_request env (Sample.server env) Sample.seattle Sample.world in
  truthy Sample.seattle.(body_location) = true
  /\ fst (promptFunc env (Sample.server env) (Some "Seattle") Sample.world)
     = Returned (JArr [])
  /\ response_of r = Some (200, JObj [("result", JArr [])])
  /\ matches_schema parser (JArr []) = false
  /\ has_exactly_keys schema_keys (JArr []) = false
  /\ has_exactly_keys requested_keys (JArr []) = false.
Proof. vm_compute. repeat split. Qed.

(** C3 (amended).  For a non-empty location on which the pipeline
    succeeds, the response is 200 with the pipeline's value under
    [result], whatever that value is. *)
Theorem C3_success_returns_pipeline_value
        (env : Environment) (p : port_value) (apiKey : string)
        (location : js_string) (w : World) (v : json) :
  truthy location = true ->
  let srv := initialize env p apiKey in
  fst (promptFunc env srv location (start w)) = Returned v ->
  response_of (handle_request env srv {| body_location := location |} w)
  = Some (200, JObj [("result", v)]).
Proof.
  intros Hloc srv Hrun; subst srv.
  rewrite (handle_request_accepted env p apiKey location w Hloc).
  destruct (promptFunc env _ location (start w)) as [[v' | e] w1];
    simpl in Hrun; [| discriminate].
  injection Hrun as ->. reflexivity.
Qed.

Lemma C3_witness :
  let env := Sample.answering (Completed (JStr Sample.forecast_text)) in
  response_of (handle_request env (Sample.server env) Sample.seattle Sample.world)
  = Some (200, JObj [("result", JObj Sample.forecast_fields)]).
Proof.
  exact (C3_success_returns_pipeline_value
           (Sample.answering (Completed (JStr Sample.forecast_text)))
           DefaultPort "sk-test" (Some "Seattle") Sample.world
           (JObj Sample.forecast_fields) eq_refl eq_refl).
Defined.

(** C4 (the code departs from it).  The location is substituted into the
    one slot of the template, but the template has no slot for the
    instructions: the prompt sent to the model is the same whatever text
    the output parser rendered, and for a request about Seattle it does
    not contain the instructions. *)
Theorem C4_prompt_omits_format_instructions :
  (forall (env : Environment) (p : port_value) (apiKey : string)
          (location : js_string) (w : World),
      (snd (promptFunc env (initialize env p apiKey) location w)).(calls)
      = (w.(calls)
         ++ [{| call_config := (initialize env p apiKey).(model);
                call_prompt := template_head ++ to_text location ++ template_tail |}])%list)
  /\ (forall fi location,
         PromptTemplate_format (promptTemplate fi) [("location", location)]
         = inr (template_head ++ to_text location ++ template_tail))
  /\ (let env := Sample.answering (Completed (JStr Sample.forecast_text)) in
      let r := handle_request env (Sample.server env) Sample.seattle Sample.world in
      map (fun c => contains "Seattle" c.(call_prompt)) (snd r).(calls) = [true]
      /\ (Sample.server env).(formatInstructions) = Sample.instructions
      /\ map (fun c => contains Sample.instructions c.(call_prompt)) (snd r).(calls)
         = [false]).
Proof.
  split; [| split].
  - intros. apply promptFunc_calls.
  - intros. apply format_location.
  - vm_compute. repeat split.
Qed.

(** C5 (the code departs from it).  When the model raises on a request
    whose location is missing or empty, the 400 response has already been
    written: that is what the client gets, and the 500 write of the
    handler's [catch] block is refused.  The error is logged by
    [promptFunc]. *)
Theorem C5_provider_error_after_rejection
        (env : Environment) (p : port_value) (apiKey : string)
        (location : js_string) (w : World) (e : thrown) :
  truthy location = false ->
  let srv := initialize env p apiKey in
  env.(provider) w.(calls) (forecast_call srv location) = Raised e ->
  let r := handle_request env srv {| body_location := location |} w in
  response_of r = Some (400, missing_location_body)
  /\ response_of r <> Some (500, internal_error_body)
  /\ fst r = Thrown headers_sent
  /\ (snd r).(console) = (w.(console) ++ pipeline_line e
                            :: if instanceof_Error e then [endpoint_line e] else [])%list.
Proof.
  intros Hloc srv Hraise r; subst srv r.
  destruct (rejected_response env p apiKey location w Hloc) as [H400 Hesc].
  split; [exact H400 |]. split; [rewrite H400; discriminate |].
  split; [exact Hesc |].
  rewrite (handle_request_rejected env p apiKey location w Hloc), promptFunc_run.
  cbv zeta. change (calls (respond 400 missing_location_body (start w)))
    with (calls w).
  rewrite Hraise. unfold caught.
  destruct (instanceof_Error e); simpl; [rewrite <- app_assoc |]; reflexivity.
Qed.

Lemma C5_witness :
  let env := Sample.answering (Raised Sample.quota_error) in
  let r := handle_request env (Sample.server env) Sample.empty_location Sample.world in
  response_of r = Some (400, missing_location_body)
  /\ response_of r <> Some (500, internal_error_body)
  /\ fst r = Thrown headers_sent
  /\ (snd r).(console) = [pipeline_line Sample.quota_error;
                          endpoint_line Sample.quota_error].
Proof.
  exact (C5_provider_error_after_rejection
           (Sample.answering (Raised Sample.quota_error))
           DefaultPort "sk-test" (Some "") Sample.world
           Sample.quota_error eq_refl eq_refl).
Defined.

(** X3.  On a request whose location passed the check, a provider error gives
    the generic 500 response, whose body does not depend on the error; the
    error is written to the console. *)
Lemma provider_error_response
      (env : Environment) (p : port_value) (apiKey : string)
      (location : js_string) (w : World) (e : thrown) :
  truthy location = true ->
  let srv := initialize env p apiKey in
  env.(provider) w.(calls) (forecast_call srv location) = Raised e ->
  let r := handle_request env srv {| body_location := location |} w in
  response_of r = Some (500, internal_error_body)
  /\ fst r = Returned tt
  /\ (snd r).(console) = (w.(console) ++ pipeline_line e
                            :: if instanceof_Error e then [endpoint_line e] else [])%list.
Proof.
  intros Hloc srv Hraise r; subst srv r.
  rewrite (accepted_provider_error env p apiKey location w e Hloc Hraise).
  unfold caught.
  destruct (instanceof_Error e); simpl; [rewrite <- app_assoc |];
    repeat split; reflexivity.
Qed.

(** C6.  With no credential in the environment the script writes the error
    line and exits with code 1 at once: no server listens, no request is
    answered and the model is never called. *)
Theorem C6_no_credential_no_server
        (env : Environment) (penv : ProcessEnv) (reqs : list Request) :
  truthy penv.(OPENAI_API_KEY) = false ->
  startup env penv
  = ([(Stderr, [LogText "OPENAI_API_KEY is not defined. Exiting..."])], Exited 1)
  /\ run_process env penv reqs
     = {| exit_code := Some 1;
          responses := [];
          final_console :=
            [(Stderr, [LogText "OPENAI_API_KEY is not defined. Exiting..."])];
          final_calls := [] |}.
Proof.
  intros Hkey.
  assert (startup env penv
          = ([(Stderr, [LogText "OPENAI_API_KEY is not defined. Exiting..."])],
             Exited 1)) as Hstart
      by (unfold startup; rewrite Hkey; reflexivity).
  split; [exact Hstart |].
  unfold run_process. rewrite Hstart. reflexivity.
Qed.

Lemma C6_witness :
  let env := Sample.answering (Completed (JStr Sample.forecast_text)) in
  startup env Sample.penv_no_key
  = ([(Stderr, [LogText "OPENAI_API_KEY is not defined. Exiting..."])], Exited 1)
  /\ run_process env Sample.penv_no_key [Sample.seattle]
     = {| exit_code := Some 1;
          responses := [];
          final_console :=
            [(Stderr, [LogText "OPENAI_API_KEY is not defined. Exiting..."])];
          final_calls := [] |}.
Proof.
  exact (C6_no_credential_no_server
           (Sample.answering (Completed (JStr Sample.forecast_text)))
           Sample.penv_no_key [Sample.seattle] eq_refl).
Defined.

(** C7.  Every call the process ever makes to the model carries one and
    the same configuration: temperature 0, the model [gpt-3.5-turbo], and
    the credential read from the environment at start-up. *)
Theorem C7_model_configuration_is_fixed
        (env : Environment) (penv : ProcessEnv) (reqs : list Request) :
  Forall (fun c =>
            c.(call_config).(temperature) = 0%Q
            /\ c.(call_config).(modelName) = "gpt-3.5-turbo"
            /\ Some c.(call_config).(openAIApiKey) = penv.(OPENAI_API_KEY))
         (run_process env penv reqs).(final_calls).
Proof.
  unfold run_process.
  destruct (startup env penv) as [lines [code | srv]] eqn:Hstart; [constructor |].
  destruct (startup_listening env penv lines srv Hstart) as [key [Hkey [_ ->]]].
  pose proof (serve_calls env (port_of penv) key reqs
                {| res := fresh_response; console := lines; calls := [] |}) as Hc.
  destruct (serve env _ reqs _) as [rs w']. simpl in *. rewrite Hc.
  apply Forall_forall. intros c Hin. apply in_map_iff in Hin.
  destruct Hin as [req [<- _]]. simpl. rewrite Hkey. repeat split.
Qed.



(** X4.  On a request whose location passed the check, text that is not JSON
    gives the generic 500 response after a single call to the model. *)
Lemma unparseable_text_response
      (env : Environment) (p : port_value) (apiKey : string)
      (location : js_string) (w : World) (text msg : string) :
  truthy location = true ->
  let srv := initialize env p apiKey in
  env.(provider) w.(calls) (forecast_call srv location) = Completed (JStr text) ->
  env.(JSON_parse) text = SyntaxError msg ->
  let r := handle_request env srv {| body_location := location |} w in
  response_of r = Some (500, internal_error_body)
  /\ (snd r).(calls) = (w.(calls) ++ [forecast_call srv location])%list.
Proof.
  intros Hloc srv Hdone Hparse r; subst srv r.
  rewrite (accepted_syntax_error env p apiKey location w text msg Hloc Hdone Hparse).
  split; reflexivity.
Qed.

(** C9.  On the success path (the location passes the check, the model
    answers, and a string answer parses) the response is 200 and carries
    under [result] the model's value as it is: no key and no type of it is
    looked at, and the model was called once. *)
Theorem C9_success_path_returns_output_verbatim
        (env : Environment) (p : port_value) (apiKey : string)
        (location : js_string) (w : World) (raw v : json) :
  truthy location = true ->
  let srv := initialize env p apiKey in
  env.(provider) w.(calls) (forecast_call srv location) = Completed raw ->
  parsed_output env raw = Some v ->
  let r := handle_request env srv {| body_location := location |} w in
  response_of r = Some (200, JObj [("result", v)])
  /\ fst r = Returned tt
  /\ (snd r).(console) = w.(console)
  /\ (snd r).(calls) = (w.(calls) ++ [forecast_call srv location])%list.
Proof.
  intros Hloc srv Hdone Hout r; subst srv r.
  rewrite (accepted_output env p apiKey location w raw v Hloc Hdone Hout).
  repeat split.
Qed.

Lemma C9_witness :
  let env := Sample.answering (Completed (JStr "[]")) in
  let srv := Sample.server env in
  let r := handle_request env srv Sample.seattle Sample.world in
  response_of r = Some (200, JObj [("result", JArr [])])
  /\ fst r = Returned tt
  /\ (snd r).(console) = []
  /\ (snd r).(calls) = [forecast_call srv (Some "Seattle")].
Proof.
  exact (C9_success_path_returns_output_verbatim
           (Sample.answering (Completed (JStr "[]")))
           DefaultPort "sk-test" (Some "Seattle") Sample.world
           (JStr "[]") (JArr []) eq_refl eq_refl eq_refl).
Defined.



(* ================================================================== *)
(** * Further properties of [promptFunc] *)
(* ================================================================== *)

Section Pipeline.

Variable env : Environment.
Variable p : port_value.
Variable apiKey : string.

Local Abbreviation srv := (initialize env p apiKey).

(** How [promptFunc] ends depends on the world only through the calls made
    so far, which is all the hosted model sees of it. *)
Lemma promptFunc_outcome_calls (location : js_string) (w1 w2 : World) :
  w1.(calls) = w2.(calls) ->
  fst (promptFunc env srv location w1) = fst (promptFunc env srv location w2).
Proof.
  intros Hcalls. rewrite !promptFunc_run. cbv zeta. rewrite Hcalls.
  destruct (provider env (calls w2) _) as [raw | e]; [| reflexivity].
  destruct raw; try reflexivity.
  destruct (JSON_parse env s); reflexivity.
Qed.

Lemma promptFunc_console (location : js_string) (w : World) :
  (snd (promptFunc env srv location w)).(console)
  = (w.(console)
     ++ match fst (promptFunc env srv location w) with
        | Returned _ => []
        | Thrown e => [pipeline_line e]
        end)%list.
Proof.
  rewrite promptFunc_run. cbv zeta.
  destruct (provider env (calls w) _) as [raw | e]; [| reflexivity].
  destruct raw; simpl; try (now rewrite app_nil_r).
  destruct (JSON_parse env s); simpl; [now rewrite app_nil_r | reflexivity].
Qed.

(** X5.  Whatever the model does, [promptFunc] makes exactly one call, with
    the start-up configuration and the prompt of its input, leaves the
    response object alone, and writes to the console exactly when it
    throws: one line, carrying the very value it throws. *)
Theorem promptFunc_contract (location : js_string) (w : World) :
  let r := promptFunc env srv location w in
  (snd r).(calls) = (w.(calls) ++ [forecast_call srv location])%list
  /\ (snd r).(res) = w.(res)
  /\ (snd r).(console)
     = (w.(console)
        ++ match fst r with
           | Returned _ => []
           | Thrown e => [pipeline_line e]
           end)%list.
Proof.
  intros r; subst r. split; [apply promptFunc_calls |].
  split; [apply promptFunc_res | apply promptFunc_console].
Qed.

(** X6.  [promptFunc] throws in two cases only, and then throws what it
    was given: the value the model's call raised, or the syntax error of
    [JSON.parse] on the text the model returned.  It neither swallows an
    error nor makes one up. *)
Theorem promptFunc_throws_iff (location : js_string) (w : World) (e : thrown) :
  fst (promptFunc env srv location w) = Thrown e
  <-> env.(provider) w.(calls) (forecast_call srv location) = Raised e
      \/ exists text msg,
           env.(provider) w.(calls) (forecast_call srv location)
             = Completed (JStr text)
           /\ env.(JSON_parse) text = SyntaxError msg
           /\ e = JsError "SyntaxError" msg.
Proof.
  rewrite promptFunc_run. cbv zeta.
  destruct (provider env (calls w) _) as [raw | e'].
  - destruct raw; simpl;
      try (split; [discriminate
                  | intros [H | [text [msg [H _]]]]; discriminate]).
    destruct (JSON_parse env s) as [v | msg'] eqn:Hparse; simpl.
    + split; [discriminate |].
      intros [H | [text [msg [H [Hp _]]]]]; [discriminate |].
      injection H as <-. rewrite Hparse in Hp. discriminate.
    + split.
      * intros H; injection H as <-. right. exists s, msg'. repeat split.
        exact Hparse.
      * intros [H | [text [msg [H [Hp ->]]]]]; [discriminate |].
        injection H as <-. rewrite Hparse in Hp. injection Hp as ->.
        reflexivity.
  - simpl. split.
    + intros H; injection H as <-. now left.
    + intros [H | [text [msg [H _]]]]; [| discriminate].
      injection H as <-. reflexivity.
Qed.

End Pipeline.

(* ================================================================== *)
(** * Further properties of the handler *)
(* ================================================================== *)

Section Endpoint.

Variable env : Environment.
Variable p : port_value.
Variable apiKey : string.

Local Abbreviation srv := (initialize env p apiKey).

(** The response as a function of the location and of how the pipeline
    ends. *)
Lemma handle_request_response (location : js_string) (w : World) :
  response_of (handle_request env srv {| body_location := location |} w)
  = if truthy location
    then match fst (promptFunc env srv location (start w)) with
         | Returned v => Some (200, JObj [("result", v)])
         | Thrown _ => Some (500, internal_error_body)
         end
    else Some (400, missing_location_body).
Proof.
  destruct (truthy location) eqn:Hloc.
  - rewrite (handle_request_accepted env p apiKey location w Hloc).
    destruct (promptFunc env srv location (start w)) as [[v | e] w1];
      reflexivity.
  - apply (rejected_response env p apiKey location w Hloc).
Qed.

Lemma handle_request_answered (location : js_string) (w : World) :
  answered (response_of (handle_request env srv {| body_location := location |} w)).
Proof.
  rewrite handle_request_response.
  unfold answered. destruct (truthy location); [| now right; left].
  destruct (fst (promptFunc env srv location (start w))) as [v | e];
    [left; now exists v | now right; right].
Qed.

Lemma handle_request_outcome (location : js_string) (w : World) :
  fst (handle_request env srv {| body_location := location |} w)
  = if truthy location then Returned tt else Thrown headers_sent.
Proof.
  destruct (truthy location) eqn:Hloc.
  - rewrite (handle_request_accepted env p apiKey location w Hloc).
    destruct (promptFunc env srv location (start w)) as [[v | e] w1];
      reflexivity.
  - apply (rejected_response env p apiKey location w Hloc).
Qed.

Lemma handle_request_console (location : js_string) (w : World) :
  (snd (handle_request env srv {| body_location := location |} w)).(console)
  = (w.(console)
     ++ request_lines location (fst (promptFunc env srv location (start w))))%list.
Proof.
  destruct (truthy location) eqn:Hloc.
  - rewrite (handle_request_accepted env p apiKey location w Hloc).
    pose proof (promptFunc_console env p apiKey location (start w)) as Hc.
    destruct (promptFunc env srv location (start w)) as [[v | e] w1];
      simpl in Hc; unfold request_lines; rewrite ?Hloc; simpl.
    + exact Hc.
    + unfold caught. destruct (instanceof_Error e); simpl; rewrite Hc;
        [rewrite <- app_assoc |]; reflexivity.
  - rewrite (handle_request_rejected env p apiKey location w Hloc).
    rewrite (promptFunc_outcome_calls env p apiKey location (start w)
               (respond 400 missing_location_body (start w)) eq_refl).
    pose proof (promptFunc_console env p apiKey location
                  (respond 400 missing_location_body (start w))) as Hc.
    destruct (promptFunc env srv location _) as [[v | e] w1];
      simpl in Hc; unfold request_lines; rewrite ?Hloc; simpl.
    + rewrite Hc, app_nil_r. reflexivity.
    + unfold caught. destruct (instanceof_Error e); simpl; rewrite Hc;
        [rewrite <- app_assoc |]; reflexivity.
Qed.

(** X1.  Every request gets a response, and which one is settled by two
    things only: 400 with the fixed message when the location is missing
    or empty; otherwise 200 with the pipeline's value under [result] when
    the pipeline returns, and 500 with the fixed message when it throws.
    No other status or body is ever written. *)
Theorem handler_response (location : js_string) (w : World) :
  let r := handle_request env srv {| body_location := location |} w in
  response_of r
  = (if truthy location
     then match fst (promptFunc env srv location (start w)) with
          | Returned v => Some (200, JObj [("result", v)])
          | Thrown _ => Some (500, internal_error_body)
          end
     else Some (400, missing_location_body))
  /\ answered (response_of r).
Proof.
  intros r; subst r.
  split; [apply handle_request_response | apply handle_request_answered].
Qed.

(** X2.  The handler itself ends normally exactly when the location is
    non-empty: then every exception of the pipeline is caught and answered.
    With a missing or empty location it always ends by throwing the
    refused second write, whatever the pipeline did. *)
Theorem handler_throws_iff_location_missing (location : js_string) (w : World) :
  let r := handle_request env srv {| body_location := location |} w in
  (fst r = Returned tt <-> truthy location = true)
  /\ (fst r = Thrown headers_sent <-> truthy location = false).
Proof.
  intros r; subst r. rewrite handle_request_outcome.
  destruct (truthy location); split; split; intros H;
    try reflexivity; discriminate.
Qed.

(** X7.  What a request writes to the console: nothing when the location
    is non-empty and the pipeline returns; when the pipeline throws, the
    line of [promptFunc] with the thrown value and, if that value is an
    [Error], a second line with its message; and for a missing or empty
    location whose pipeline returns, the message of the refused write.
    Earlier lines are kept. *)
Theorem handler_console (location : js_string) (w : World) :
  let r := handle_request env srv {| body_location := location |} w in
  (snd r).(console)
  = (w.(console)
     ++ request_lines location (fst (promptFunc env srv location (start w))))%list
  /\ List.length (snd r).(console) <= List.length w.(console) + 2.
Proof.
  intros r; subst r. rewrite handle_request_console. split; [reflexivity |].
  rewrite length_app. unfold request_lines.
  destruct (fst (promptFunc env srv location (start w))) as [v | e].
  - destruct (truthy location); simpl; lia.
  - destruct (instanceof_Error e); simpl; lia.
Qed.

(** The response to a request depends on the process's past only through
    the calls the model has seen. *)
Lemma response_depends_on_calls (req : Request) (w1 w2 : World) :
  w1.(calls) = w2.(calls) ->
  response_of (handle_request env srv req w1)
  = response_of (handle_request env srv req w2).
Proof.
  intros Hcalls. destruct req as [location].
  rewrite !handle_request_response.
  rewrite (promptFunc_outcome_calls env p apiKey location (start w1) (start w2) Hcalls).
  reflexivity.
Qed.

Lemma response_stateless (req : Request) (w1 w2 : World) :
  stateless env ->
  response_of (handle_request env srv req w1)
  = response_of (handle_request env srv req w2).
Proof.
  intros Hst. destruct req as [location].
  rewrite !handle_request_response.
  replace (fst (promptFunc env srv location (start w1)))
    with (fst (promptFunc env srv location (start w2))); [reflexivity |].
  rewrite !promptFunc_run. cbv zeta.
  rewrite (Hst (calls (start w2)) (calls (start w1))).
  destruct (provider env (calls (start w1)) _) as [raw | e]; [| reflexivity].
  destruct raw; try reflexivity.
  destruct (JSON_parse env s); reflexivity.
Qed.

End Endpoint.

(* ================================================================== *)
(** * Further properties of the process *)
(* ================================================================== *)

Lemma startup_with_key (env : Environment) (penv : ProcessEnv) (key : string) :
  penv.(OPENAI_API_KEY) = Some key ->
  (key =? "") = false ->
  startup env penv
  = ([(Stdout, port_text (port_of penv))],
     Listening (initialize env (port_of penv) key)).
Proof.
  intros Hkey Hne. unfold startup. rewrite Hkey. simpl. rewrite Hne.
  reflexivity.
Qed.

(** X8.  As long as the requests carry a non-empty location, so that no
    handler ends by throwing, and the hosted model keeps no memory of
    earlier calls, requests do not influence one another: every handler
    ends normally, and the responses to the sequence are, one by one, the
    responses each request would get if it were the first the process
    ever served. *)
Theorem stateless_requests_are_independent
        (env : Environment) (p : port_value) (apiKey : string)
        (reqs : list Request) (w : World) :
  stateless env ->
  forallb (fun req => truthy req.(body_location)) reqs = true ->
  let srv := initialize env p apiKey in
  fst (serve env srv reqs w)
  = map (fun req => response_of (handle_request env srv req idle)) reqs
  /\ Forall (fun req => forall w', fst (handle_request env srv req w') = Returned tt)
       reqs.
Proof.
  intros Hst Hall srv; subst srv.
  revert w; induction reqs as [| req rest IH]; intros w; simpl.
  - split; [reflexivity | constructor].
  - simpl in Hall. apply andb_true_iff in Hall as [Hreq Hrest].
    specialize (IH Hrest
                  (snd (handle_request env (initialize env p apiKey) req w))).
    destruct (serve env (initialize env p apiKey) rest _) as [rs w'].
    simpl in *. destruct IH as [IHr IHn]. split.
    + rewrite IHr.
      now rewrite (response_stateless env p apiKey req w idle Hst).
    + constructor; [| exact IHn].
      intros w0. destruct req as [location]. cbn [body_location] in Hreq.
      rewrite handle_request_outcome, Hreq. reflexivity.
Qed.

Lemma stateless_requests_are_independent_witness :
  let env := Sample.answering (Completed (JStr Sample.forecast_text)) in
  let srv := Sample.server env in
  fst (serve env srv [Sample.seattle; Sample.paris; Sample.seattle] Sample.world)
  = [Some (200, JObj [("result", JObj Sample.forecast_fields)]);
     Some (200, JObj [("result", JObj Sample.forecast_fields)]);
     Some (200, JObj [("result", JObj Sample.forecast_fields)])]
  /\ Forall (fun req => forall w', fst (handle_request env srv req w') = Returned tt)
       [Sample.seattle; Sample.paris; Sample.seattle].
Proof.
  exact (stateless_requests_are_independent
           (Sample.answering (Completed (JStr Sample.forecast_text)))
           DefaultPort "sk-test"
           [Sample.seattle; Sample.paris; Sample.seattle] Sample.world
           (fun _ _ _ => eq_refl) eq_refl).
Defined.

(** X9.  A process started with a credential makes one call to the model
    per request it serves, in the order of the requests, whether or not
    the request had a location: each call carries the start-up
    configuration and the prompt of that request's location. *)
Theorem process_calls_follow_requests
        (env : Environment) (penv : ProcessEnv) (reqs : list Request)
        (key : string) :
  penv.(OPENAI_API_KEY) = Some key ->
  (key =? "") = false ->
  (run_process env penv reqs).(final_calls)
  = map (fun req => {| call_config := new_model key;
                       call_prompt := prompt_text req.(body_location) |})
        reqs.
Proof.
  intros Hkey Hne. unfold run_process.
  rewrite (startup_with_key env penv key Hkey Hne).
  pose proof (serve_calls env (port_of penv) key reqs
                {| res := fresh_response;
                   console := [(Stdout, port_text (port_of penv))];
                   calls := [] |}) as Hc.
  destruct (serve env _ reqs _) as [rs w']. simpl in *. exact Hc.
Qed.

Lemma process_calls_follow_requests_witness :
  let env := Sample.answering (Raised Sample.quota_error) in
  (run_process env Sample.penv [Sample.seattle; Sample.no_location]).(final_calls)
  = [ {| call_config := new_model "sk-test";
         call_prompt := prompt_text (Some "Seattle") |};
      {| call_config := new_model "sk-test";
         call_prompt := prompt_text None |} ].
Proof.
  exact (process_calls_follow_requests
           (Sample.answering (Raised Sample.quota_error)) Sample.penv
           [Sample.seattle; Sample.no_location] "sk-test" eq_refl eq_refl).
Defined.

(* ================================================================== *)
(** * The output parser and the prompt *)
(* ================================================================== *)

Lemma handle_request_ignores_instructions
      (env : Environment) (render : OutputFixingParser -> string)
      (p : port_value) (apiKey : string) (req : Request) (w : World) :
  handle_request (with_instructions env render)
    (initialize (with_instructions env render) p apiKey) req w
  = handle_request env (initialize env p apiKey) req w.
Proof.
  destruct req as [location]. destruct (truthy location) eqn:Hloc.
  - rewrite !(handle_request_accepted _ p apiKey location w Hloc).
    rewrite !promptFunc_run. reflexivity.
  - rewrite !(handle_request_rejected _ p apiKey location w Hloc).
    rewrite !promptFunc_run. reflexivity.
Qed.

Lemma serve_ignores_instructions
      (env : Environment) (render : OutputFixingParser -> string)
      (p : port_value) (apiKey : string) (reqs : list Request) (w : World) :
  serve (with_instructions env render)
    (initialize (with_instructions env render) p apiKey) reqs w
  = serve env (initialize env p apiKey) reqs w.
Proof.
  revert w; induction reqs as [| req rest IH]; intros w; simpl.
  - reflexivity.
  - rewrite handle_request_ignores_instructions, IH. reflexivity.
Qed.

(** X12.  The output parser built at start-up has no effect on what the
    process does: whatever instructions text the library renders for it,
    the exit code, the responses, the console lines and the calls made to
    the model are the same. *)
Theorem process_ignores_output_parser
        (env : Environment) (render : OutputFixingParser -> string)
        (penv : ProcessEnv) (reqs : list Request) :
  run_process (with_instructions env render) penv reqs
  = run_process env penv reqs.
Proof.
  unfold run_process, startup.
  destruct (negb (truthy (OPENAI_API_KEY penv))); [reflexivity |].
  rewrite serve_ignores_instructions. reflexivity.
Qed.





(* ================================================================== *)
(** * Examples for the error responses *)
(* ================================================================== *)

Lemma provider_error_response_witness :
  let env := Sample.answering (Raised Sample.quota_error) in
  let r := handle_request env (Sample.server env) Sample.seattle Sample.world in
  response_of r = Some (500, internal_error_body)
  /\ fst r = Returned tt
  /\ (snd r).(console) = [pipeline_line Sample.quota_error;
                          endpoint_line Sample.quota_error].
Proof.
  exact (provider_error_response
           (Sample.answering (Raised Sample.quota_error))
           DefaultPort "sk-test" (Some "Seattle") Sample.world
           Sample.quota_error eq_refl eq_refl).
Defined.

Lemma unparseable_text_response_witness :
  let env := Sample.answering (Completed (JStr "sunny")) in
  let srv := Sample.server env in
  let r := handle_request env srv Sample.seattle Sample.world in
  response_of r = Some (500, internal_error_body)
  /\ (snd r).(calls) = [forecast_call srv (Some "Seattle")].
Proof.
  exact (unparseable_text_response
           (Sample.answering (Completed (JStr "sunny")))
           DefaultPort "sk-test" (Some "Seattle") Sample.world
           "sunny" "Unexpected token in JSON: sunny" eq_refl eq_refl eq_refl).
Defined.
